(** * bevy-discord-game-sdk: a shallow embedding of [src/lib.rs]

    The crate is a Bevy plugin, [DiscordPlugin(ClientID)], whose [build]
    calls [Discord::new(self.0)]; on [Err] it logs with [error!], on [Ok]
    it inserts the client as a non-send resource and adds the system
    [run_discord_callbacks], which calls [client.run_callbacks()] once.

    The Discord Game SDK ([Discord::new], [Discord::run_callbacks], the
    [Display] of its errors) is external: it is a parameter of the
    development.  The Bevy builder is modelled by the part of its state
    that the plugin touches: a resource registry and a non-send resource
    registry keyed by type name, the list of systems, and the log.  The
    calls made into the SDK are recorded in a trace. *)

From stdpp Require Import base gmap strings list.

(** Rust's [Result<T, E>]. *)
Inductive result (T E : Type) : Type :=
| Ok (t : T)
| Err (e : E).
Arguments Ok {T E} t.
Arguments Err {T E} e.

(** How a Bevy call ends: normally, or by a panic. *)
Inductive outcome (A : Type) : Type :=
| Done (a : A)
| Panicked (msg : string).
Arguments Done {A} a.
Arguments Panicked {A} msg.

(** [bevy_log] levels and records. *)
Inductive Level := LError | LWarn | LInfo | LDebug | LTrace.

Record LogRecord := mkLogRecord { level : Level; message : string }.

(** [discord_game_sdk::ClientID] is an [i64]. *)
Definition ClientID := Z.

(** [pub struct DiscordPlugin(ClientID);] *)
Record DiscordPlugin := mkDiscordPlugin { plugin_id : ClientID }.

(** Calls into the external SDK, as observed by the trace. *)
Inductive SdkCall :=
| CallNew (id : ClientID)
| CallRunCallbacks.

(** Systems of the schedule: the plugin's poll system, or any other. *)
Inductive System :=
| SysRunDiscordCallbacks
| SysOther (name : string).

(** The Rust type name under which Bevy files the client. *)
Definition discord_type : string := "discord_game_sdk::Discord".

(** A concrete SDK used to exercise the statements: [Discord::new]
    succeeds for positive identifiers, the client is a poll counter, and
    [Display] of an error is its text. *)
Definition sample_new (id : ClientID) : result nat string :=
  if Z.ltb 0 id then Ok 0%nat else Err "NotInstalled".

Definition sample_run_callbacks (c : nat) : nat * result unit string :=
  (S c, Ok tt).

(** An SDK whose [run_callbacks] reports an error every frame. *)
Definition failing_run_callbacks (c : nat) : nat * result unit string :=
  (c, Err "NotRunning").

Definition sample_display (e : string) : string := e.

Section Shim.

Context {Discord SdkError : Type}.

(** [Discord::new(client_id) -> Result<Discord>] *)
Variable discord_new : ClientID -> result Discord SdkError.
(** [Discord::run_callbacks(&self) -> Result<()>]; the client's state may
    change (interior mutability), hence the new client. *)
Variable run_callbacks : Discord -> Discord * result unit SdkError.
(** [impl Display for discord_game_sdk::Error] *)
Variable display : SdkError -> string.

(** A value stored in a registry slot. *)
Inductive Res :=
| RDiscord (d : Discord)
| ROther (payload : Z).

Record AppBuilder := mkApp {
  resources : gmap string Res;
  non_send_resources : gmap string Res;
  systems : list System;
  logs : list LogRecord
}.

Record State := mkState { app : AppBuilder; sdk_calls : list SdkCall }.

(** [AppBuilder::insert_non_send_resource]: files the value under its
    type, replacing any earlier value of that type. *)
Definition insert_non_send_resource (client : Discord) (a : AppBuilder)
    : AppBuilder :=
  mkApp (resources a) (<[discord_type := RDiscord client]> (non_send_resources a))
        (systems a) (logs a).

(** [AppBuilder::add_system]: appends to the update stage. *)
Definition add_system (s : System) (a : AppBuilder) : AppBuilder :=
  mkApp (resources a) (non_send_resources a) (systems a ++ [s]) (logs a).

(** [error!(...)] *)
Definition error_log (msg : string) (a : AppBuilder) : AppBuilder :=
  mkApp (resources a) (non_send_resources a) (systems a)
        (logs a ++ [mkLogRecord LError msg]).

(** [Discord::new(id)], recorded in the trace. *)
Definition new_discord (id : ClientID) (st : State)
    : result Discord SdkError * State :=
  (discord_new id, mkState (app st) (sdk_calls st ++ [CallNew id])).

Definition init_failure_message (err : SdkError) : string :=
  String.append "Failed to initialize Discord client: " (display err).

(** [impl Plugin for DiscordPlugin { fn build(&self, app: &mut AppBuilder) }] *)
Definition build (p : DiscordPlugin) (st : State) : outcome State :=
  let '(r, st) := new_discord (plugin_id p) st in
  match r with
  | Err err => Done (mkState (error_log (init_failure_message err) (app st)) (sdk_calls st))
  | Ok client =>
      Done (mkState (add_system SysRunDiscordCallbacks
                       (insert_non_send_resource client (app st)))
                    (sdk_calls st))
  end.

(** [fn run_discord_callbacks(client: NonSend<Discord>) { client.run_callbacks(); }]
    The [Result] of [run_callbacks] is dropped by the statement [;]. *)
Definition run_discord_callbacks (client : Discord) (calls : list SdkCall)
    : Discord * list SdkCall :=
  let '(client', _) := run_callbacks client in (client', calls ++ [CallRunCallbacks]).

(** [N] consecutive invocations of the poll system on the same client. *)
Fixpoint poll_n (n : nat) (client : Discord) (calls : list SdkCall)
    : Discord * list SdkCall :=
  match n with
  | O => (client, calls)
  | S n' =>
      let '(client', calls') := run_discord_callbacks client calls in
      poll_n n' client' calls'
  end.

Definition set_non_send (k : string) (v : Res) (a : AppBuilder) : AppBuilder :=
  mkApp (resources a) (<[k := v]> (non_send_resources a)) (systems a) (logs a).

(** Running one system.  Bevy fetches the [NonSend<Discord>] parameter and
    panics when the resource does not exist.  Systems other than the
    plugin's are outside the shim; they do not touch its state here. *)
Definition run_system (s : System) (st : State) : outcome State :=
  match s with
  | SysRunDiscordCallbacks =>
      match non_send_resources (app st) !! discord_type with
      | Some (RDiscord client) =>
          let '(client', calls') := run_discord_callbacks client (sdk_calls st) in
          Done (mkState (set_non_send discord_type (RDiscord client') (app st)) calls')
      | _ => Panicked "Requested non-send resource discord_game_sdk::Discord does not exist"
      end
  | SysOther _ => Done st
  end.

Fixpoint run_systems (ss : list System) (st : State) : outcome State :=
  match ss with
  | [] => Done st
  | s :: ss' =>
      match run_system s st with
      | Done st' => run_systems ss' st'
      | Panicked m => Panicked m
      end
  end.

(** One frame: every registered system runs once. *)
Definition tick (st : State) : outcome State := run_systems (systems (app st)) st.

Fixpoint run_ticks (n : nat) (st : State) : outcome State :=
  match n with
  | O => Done st
  | S n' =>
      match tick st with
      | Done st' => run_ticks n' st'
      | Panicked m => Panicked m
      end
  end.

(** Observations. *)
Fixpoint count_run_callbacks (calls : list SdkCall) : nat :=
  match calls with
  | [] => 0
  | CallRunCallbacks :: cs => S (count_run_callbacks cs)
  | CallNew _ :: cs => count_run_callbacks cs
  end.

Fixpoint count_poll_systems (ss : list System) : nat :=
  match ss with
  | [] => 0
  | SysRunDiscordCallbacks :: ss' => S (count_poll_systems ss')
  | SysOther _ :: ss' => count_poll_systems ss'
  end.

Definition is_discord (r : Res) : bool :=
  match r with RDiscord _ => true | ROther _ => false end.

Definition handles_in (m : gmap string Res) : nat :=
  size (filter (fun kv : string * Res => is_discord kv.2 = true) m).

(** Number of SDK client handles held by the builder's registries. *)
Definition discord_count (a : AppBuilder) : nat :=
  handles_in (resources a) + handles_in (non_send_resources a).

(** Rust typing: [Discord] is not [Send], so it is never an ordinary
    resource, and a non-send slot holds a value of the slot's type. *)
Definition registry_wt (a : AppBuilder) : Prop :=
  (forall k d, resources a !! k = Some (RDiscord d) -> False) /\
  (forall k d, non_send_resources a !! k = Some (RDiscord d) -> k = discord_type).

Definition holds_client (a : AppBuilder) : bool :=
  match non_send_resources a !! discord_type with
  | Some (RDiscord _) => true
  | _ => false
  end.

(** ** Registry lemmas *)

Lemma handles_in_none (m : gmap string Res) :
  (forall k d, m !! k = Some (RDiscord d) -> False) -> handles_in m = 0.
Proof.
  intros H. unfold handles_in.
  replace (filter _ m) with (∅ : gmap string Res); [apply map_size_empty|].
  apply map_eq. intros i. rewrite map_lookup_filter, lookup_empty.
  destruct (m !! i) as [[d|z]|] eqn:E; simpl; try done.
  exfalso. eapply H; eauto.
Qed.

Lemma handles_in_typed (m : gmap string Res) :
  (forall k d, m !! k = Some (RDiscord d) -> k = discord_type) ->
  handles_in m =
    match m !! discord_type with Some (RDiscord _) => 1 | _ => 0 end.
Proof.
  intros H. unfold handles_in.
  destruct (m !! discord_type) as [[d|z]|] eqn:E.
  - replace (filter _ m) with ({[discord_type := RDiscord d]} : gmap string Res);
      [apply map_size_singleton|].
    apply map_eq. intros i. rewrite map_lookup_filter.
    destruct (decide (i = discord_type)) as [->|Hne].
    + rewrite lookup_singleton_eq, E. done.
    + rewrite lookup_singleton_ne by congruence.
      destruct (m !! i) as [[d'|z]|] eqn:Ei; simpl; try done.
      exfalso. apply Hne. eapply H; eauto.
  - replace (filter _ m) with (∅ : gmap string Res); [apply map_size_empty|].
    apply map_eq. intros i. rewrite map_lookup_filter, lookup_empty.
    destruct (m !! i) as [[d'|z']|] eqn:Ei; simpl; try done.
    rewrite (H _ _ Ei) in Ei. congruence.
  - replace (filter _ m) with (∅ : gmap string Res); [apply map_size_empty|].
    apply map_eq. intros i. rewrite map_lookup_filter, lookup_empty.
    destruct (m !! i) as [[d'|z']|] eqn:Ei; simpl; try done.
    rewrite (H _ _ Ei) in Ei. congruence.
Qed.

Lemma discord_count_wt (a : AppBuilder) :
  registry_wt a -> discord_count a = if holds_client a then 1 else 0.
Proof.
  intros [H1 H2]. unfold discord_count, holds_client.
  rewrite handles_in_none by exact H1. rewrite handles_in_typed by exact H2.
  destruct (non_send_resources a !! discord_type) as [[]|]; reflexivity.
Qed.

(** ** Steps of [build] *)

Lemma build_ok (p : DiscordPlugin) (st : State) (c : Discord) :
  discord_new (plugin_id p) = Ok c ->
  build p st =
    Done (mkState (add_system SysRunDiscordCallbacks
                     (insert_non_send_resource c (app st)))
                  (sdk_calls st ++ [CallNew (plugin_id p)])).
Proof. intros H. unfold build, new_discord. rewrite H. reflexivity. Qed.

Lemma build_err (p : DiscordPlugin) (st : State) (e : SdkError) :
  discord_new (plugin_id p) = Err e ->
  build p st =
    Done (mkState (error_log (init_failure_message e) (app st))
                  (sdk_calls st ++ [CallNew (plugin_id p)])).
Proof. intros H. unfold build, new_discord. rewrite H. reflexivity. Qed.

Lemma count_run_callbacks_app (l1 l2 : list SdkCall) :
  count_run_callbacks (l1 ++ l2) = count_run_callbacks l1 + count_run_callbacks l2.
Proof. induction l1 as [|[] l1 IH]; simpl; lia. Qed.

Lemma count_poll_systems_app (l1 l2 : list System) :
  count_poll_systems (l1 ++ l2) = count_poll_systems l1 + count_poll_systems l2.
Proof. induction l1 as [|[] l1 IH]; simpl; lia. Qed.

Lemma registry_wt_set_discord (a : AppBuilder) (c : Discord) :
  registry_wt a -> registry_wt (set_non_send discord_type (RDiscord c) a).
Proof.
  intros [H1 H2]. split; [exact H1|]. simpl. intros k d Hk.
  apply lookup_insert_Some in Hk as [[-> _]|[_ Hk]]; [done|]. eauto.
Qed.

Lemma registry_wt_insert (a : AppBuilder) (c : Discord) :
  registry_wt a -> registry_wt (insert_non_send_resource c a).
Proof. apply registry_wt_set_discord. Qed.

Lemma holds_client_set_discord (a : AppBuilder) (c : Discord) :
  holds_client (set_non_send discord_type (RDiscord c) a) = true.
Proof. unfold holds_client. simpl. rewrite lookup_insert_eq. reflexivity. Qed.

(** ** Systems and frames *)

(** What a system that completes leaves unchanged. *)
Lemma run_system_frame (s : System) (st st' : State) :
  run_system s st = Done st' ->
  holds_client (app st') = holds_client (app st) /\
  (registry_wt (app st) -> registry_wt (app st')) /\
  systems (app st') = systems (app st) /\
  resources (app st') = resources (app st) /\
  logs (app st') = logs (app st).
Proof.
  destruct s; simpl.
  - destruct (non_send_resources (app st) !! discord_type) as [[c|z]|] eqn:E;
      try discriminate.
    unfold run_discord_callbacks. destruct (run_callbacks c) as [c' r].
    intros [= <-]. simpl. unfold holds_client at 2. rewrite E.
    split; [apply holds_client_set_discord|].
    split; [apply registry_wt_set_discord|]. auto.
  - intros [= <-]. auto.
Qed.

Lemma run_systems_frame (ss : list System) (st st' : State) :
  run_systems ss st = Done st' ->
  holds_client (app st') = holds_client (app st) /\
  (registry_wt (app st) -> registry_wt (app st')) /\
  systems (app st') = systems (app st) /\
  resources (app st') = resources (app st) /\
  logs (app st') = logs (app st).
Proof.
  revert st. induction ss as [|s ss IH]; intros st; simpl.
  - intros [= <-]. auto.
  - destruct (run_system s st) as [st1|m] eqn:E; [|discriminate].
    intros H. apply run_system_frame in E as (E1 & E2 & E3 & E4 & E5).
    destruct (IH _ H) as (F1 & F2 & F3 & F4 & F5).
    split; [congruence|]. split; [intros; auto|].
    split; [congruence|]. split; congruence.
Qed.

Lemma run_ticks_frame (n : nat) (st st' : State) :
  run_ticks n st = Done st' ->
  holds_client (app st') = holds_client (app st) /\
  (registry_wt (app st) -> registry_wt (app st')) /\
  systems (app st') = systems (app st) /\
  resources (app st') = resources (app st) /\
  logs (app st') = logs (app st).
Proof.
  revert st. induction n as [|n IH]; intros st; simpl.
  - intros [= <-]. auto.
  - unfold tick. destruct (run_systems (systems (app st)) st) as [st1|m] eqn:E;
      [|discriminate].
    intros H. apply run_systems_frame in E as (E1 & E2 & E3 & E4 & E5).
    destruct (IH _ H) as (F1 & F2 & F3 & F4 & F5).
    split; [congruence|]. split; [intros; auto|].
    split; [congruence|]. split; congruence.
Qed.

(** While the client is held, every system completes, and each run of the
    poll system adds one [run_callbacks] call. *)
Lemma run_system_active (s : System) (st : State) :
  holds_client (app st) = true ->
  exists st', run_system s st = Done st' /\
    count_run_callbacks (sdk_calls st') =
      count_run_callbacks (sdk_calls st) + count_poll_systems [s].
Proof.
  unfold holds_client. intros H. destruct s; simpl.
  - destruct (non_send_resources (app st) !! discord_type) as [[c|z]|];
      try discriminate.
    unfold run_discord_callbacks. destruct (run_callbacks c) as [c' r].
    eexists; split; [reflexivity|]. simpl.
    rewrite count_run_callbacks_app. simpl. lia.
  - eexists; split; [reflexivity|]. lia.
Qed.

Lemma run_systems_active (ss : list System) (st : State) :
  holds_client (app st) = true ->
  exists st', run_systems ss st = Done st' /\
    count_run_callbacks (sdk_calls st') =
      count_run_callbacks (sdk_calls st) + count_poll_systems ss.
Proof.
  revert st. induction ss as [|s ss IH]; intros st H; simpl.
  - eexists; split; [reflexivity|]. lia.
  - destruct (run_system_active s st H) as (st1 & E & C).
    rewrite E. pose proof (run_system_frame _ _ _ E) as (F1 & _).
    destruct (IH st1) as (st2 & E2 & C2); [congruence|].
    exists st2. split; [exact E2|]. simpl in C. destruct s; simpl in *; lia.
Qed.

Lemma run_ticks_active (n : nat) (st : State) :
  holds_client (app st) = true ->
  exists st', run_ticks n st = Done st' /\
    count_run_callbacks (sdk_calls st') =
      count_run_callbacks (sdk_calls st) + n * count_poll_systems (systems (app st)).
Proof.
  revert st. induction n as [|n IH]; intros st H; simpl.
  - eexists; split; [reflexivity|]. lia.
  - unfold tick. destruct (run_systems_active (systems (app st)) st H) as (st1 & E & C).
    rewrite E. pose proof (run_systems_frame _ _ _ E) as (F1 & _ & F3 & _).
    destruct (IH st1) as (st2 & E2 & C2); [congruence|].
    exists st2. split; [exact E2|]. rewrite F3 in C2. lia.
Qed.

Lemma discord_count_add_system (s : System) (a : AppBuilder) :
  discord_count (add_system s a) = discord_count a.
Proof. reflexivity. Qed.

Lemma registry_wt_add_system (s : System) (a : AppBuilder) :
  registry_wt a -> registry_wt (add_system s a).
Proof. exact id. Qed.

Lemma holds_client_after_build_ok (c : Discord) (a : AppBuilder) :
  holds_client (add_system SysRunDiscordCallbacks (insert_non_send_resource c a)) = true.
Proof. apply holds_client_set_discord. Qed.

(** ** Claims about [build] and [run_discord_callbacks] *)

(** C1: when [Discord::new] succeeds, [build] leaves exactly one client
    handle, filed as the non-send resource of type [Discord], and one poll
    system (the plugin being registered once), so that every following
    frame calls [run_callbacks] once: after [n] frames, [n] calls. *)
Theorem build_success_registers (p : DiscordPlugin) (st : State) (c : Discord) :
  registry_wt (app st) ->
  count_poll_systems (systems (app st)) = 0 ->
  discord_new (plugin_id p) = Ok c ->
  exists st', build p st = Done st' /\
    non_send_resources (app st') !! discord_type = Some (RDiscord c) /\
    discord_count (app st') = 1 /\
    count_poll_systems (systems (app st')) = 1 /\
    forall n, exists st'', run_ticks n st' = Done st'' /\
      count_run_callbacks (sdk_calls st'') = count_run_callbacks (sdk_calls st') + n.
Proof.
  intros Hwt Hnone Hnew. rewrite (build_ok p st c Hnew).
  eexists; split; [reflexivity|]. simpl.
  split; [by rewrite lookup_insert_eq|].
  split.
  { rewrite discord_count_add_system, discord_count_wt
      by (apply registry_wt_insert; exact Hwt).
    unfold holds_client. simpl. by rewrite lookup_insert_eq. }
  split; [rewrite count_poll_systems_app, Hnone; reflexivity|].
  intros n.
  destruct (run_ticks_active n
              (mkState (add_system SysRunDiscordCallbacks (insert_non_send_resource c (app st)))
                       (sdk_calls st ++ [CallNew (plugin_id p)])))
    as (st'' & E & C); [apply holds_client_after_build_ok|].
  exists st''. split; [exact E|]. rewrite C. simpl.
  rewrite count_poll_systems_app, Hnone. simpl. lia.
Qed.

(** C2: when [Discord::new] fails with [e], [build] completes normally and
    its only effect on the builder is one error-level record whose text is
    ["Failed to initialize Discord client: "] followed by the description
    of [e]; when it succeeds, nothing is logged. *)
Theorem build_failure_logs (p : DiscordPlugin) (st : State) :
  match discord_new (plugin_id p) with
  | Err e =>
      build p st =
        Done (mkState (mkApp (resources (app st)) (non_send_resources (app st))
                             (systems (app st))
                             (logs (app st) ++
                                [mkLogRecord LError
                                   (String.append "Failed to initialize Discord client: "
                                                  (display e))]))
                      (sdk_calls st ++ [CallNew (plugin_id p)]))
  | Ok _ => exists st', build p st = Done st' /\ logs (app st') = logs (app st)
  end.
Proof.
  destruct (discord_new (plugin_id p)) as [c|e] eqn:Hnew.
  - rewrite (build_ok p st c Hnew). eexists; split; reflexivity.
  - rewrite (build_err p st e Hnew). reflexivity.
Qed.

(** C3: invoking the poll system [n] times calls [run_callbacks] exactly
    [n] times, each invocation exactly once, and makes no other SDK call. *)
Theorem poll_n_calls_run_callbacks (n : nat) (c : Discord) (calls : list SdkCall) :
  (poll_n n c calls).2 = calls ++ replicate n CallRunCallbacks /\
  count_run_callbacks (poll_n n c calls).2 = count_run_callbacks calls + n.
Proof.
  assert (Htr : forall n c calls,
             (poll_n n c calls).2 = calls ++ replicate n CallRunCallbacks).
  { clear. induction n as [|n IH]; intros c calls; simpl.
    - by rewrite app_nil_r.
    - unfold run_discord_callbacks. destruct (run_callbacks c) as [c' r].
      rewrite IH, <- app_assoc. reflexivity. }
  split; [apply Htr|]. rewrite Htr, count_run_callbacks_app.
  f_equal. clear. induction n; simpl; lia.
Qed.

(** C4: whatever [Discord::new] returns, [build] does not panic. *)
Theorem build_never_panics (p : DiscordPlugin) (st : State) :
  exists st', build p st = Done st'.
Proof.
  destruct (discord_new (plugin_id p)) as [c|e] eqn:Hnew.
  - rewrite (build_ok p st c Hnew). eexists; reflexivity.
  - rewrite (build_err p st e Hnew). eexists; reflexivity.
Qed.

(** C6: on a builder that holds no client yet, one run of [build] leaves
    either exactly the constructed client ([Ok]) or none ([Err]); in a
    well-typed registry there is never more than one handle, and the frames
    that follow neither add nor remove one. *)
Theorem build_at_most_one_handle (p : DiscordPlugin) (st : State) :
  registry_wt (app st) ->
  discord_count (app st) = 0 ->
  exists st', build p st = Done st' /\
    registry_wt (app st') /\
    discord_count (app st') <= 1 /\
    match discord_new (plugin_id p) with
    | Ok c => non_send_resources (app st') !! discord_type = Some (RDiscord c) /\
              discord_count (app st') = 1
    | Err _ => discord_count (app st') = 0
    end /\
    forall n st'', run_ticks n st' = Done st'' ->
      registry_wt (app st'') /\ discord_count (app st'') = discord_count (app st').
Proof.
  intros Hwt H0.
  destruct (build_never_panics p st) as [st' Hb]. exists st'.
  assert (Hwt' : registry_wt (app st')).
  { destruct (discord_new (plugin_id p)) as [c|e] eqn:Hnew.
    - rewrite (build_ok p st c Hnew) in Hb. injection Hb as <-.
      apply registry_wt_add_system, registry_wt_insert, Hwt.
    - rewrite (build_err p st e Hnew) in Hb. injection Hb as <-. exact Hwt. }
  split; [exact Hb|]. split; [exact Hwt'|].
  split; [rewrite (discord_count_wt _ Hwt'); destruct (holds_client (app st')); lia|].
  split.
  - destruct (discord_new (plugin_id p)) as [c|e] eqn:Hnew.
    + rewrite (build_ok p st c Hnew) in Hb. injection Hb as <-.
      simpl. rewrite lookup_insert_eq. split; [reflexivity|].
      rewrite discord_count_add_system, discord_count_wt
        by (apply registry_wt_insert; exact Hwt).
      unfold holds_client. simpl. by rewrite lookup_insert_eq.
    + rewrite (build_err p st e Hnew) in Hb. injection Hb as <-. exact H0.
  - intros n st'' Ht.
    destruct (run_ticks_frame _ _ _ Ht) as (F1 & F2 & _).
    pose proof (F2 Hwt') as Hwt''. split; [exact Hwt''|].
    rewrite (discord_count_wt _ Hwt''), (discord_count_wt _ Hwt'), F1. reflexivity.
Qed.

(** C7: once [build] has succeeded (state Active), every following frame
    completes, the client stays in its slot, the schedule keeps its poll
    system, and every frame calls [run_callbacks]. *)
Theorem active_is_permanent (p : DiscordPlugin) (st : State) (c : Discord) :
  discord_new (plugin_id p) = Ok c ->
  exists st', build p st = Done st' /\
    count_poll_systems (systems (app st')) >= 1 /\
    forall n, exists st'', run_ticks n st' = Done st'' /\
      holds_client (app st'') = true /\
      systems (app st'') = systems (app st') /\
      count_run_callbacks (sdk_calls st'') =
        count_run_callbacks (sdk_calls st') + n * count_poll_systems (systems (app st')).
Proof.
  intros Hnew. rewrite (build_ok p st c Hnew). eexists; split; [reflexivity|].
  split; [simpl; rewrite count_poll_systems_app; simpl; lia|].
  intros n.
  destruct (run_ticks_active n
              (mkState (add_system SysRunDiscordCallbacks (insert_non_send_resource c (app st)))
                       (sdk_calls st ++ [CallNew (plugin_id p)])))
    as (st'' & E & C); [apply holds_client_after_build_ok|].
  destruct (run_ticks_frame _ _ _ E) as (F1 & _ & F3 & _).
  exists st''. split; [exact E|]. split; [rewrite F1; apply holds_client_after_build_ok|].
  split; [exact F3|]. exact C.
Qed.

(** C10: [build] changes nothing in the builder but, on success, the
    non-send slot of type [Discord] and one poll system appended to the
    schedule, and, on failure, one error record appended to the log. *)
Theorem build_frame (p : DiscordPlugin) (st : State) :
  exists st', build p st = Done st' /\
    resources (app st') = resources (app st) /\
    non_send_resources (app st') =
      match discord_new (plugin_id p) with
      | Ok c => <[discord_type := RDiscord c]> (non_send_resources (app st))
      | Err _ => non_send_resources (app st)
      end /\
    systems (app st') = systems (app st) ++
      match discord_new (plugin_id p) with
      | Ok _ => [SysRunDiscordCallbacks]
      | Err _ => []
      end /\
    logs (app st') = logs (app st) ++
      match discord_new (plugin_id p) with
      | Ok _ => []
      | Err e => [mkLogRecord LError (init_failure_message e)]
      end.
Proof.
  destruct (discord_new (plugin_id p)) as [c|e] eqn:Hnew.
  - rewrite (build_ok p st c Hnew). eexists; split; [reflexivity|].
    simpl. rewrite app_nil_r. auto.
  - rewrite (build_err p st e Hnew). eexists; split; [reflexivity|].
    simpl. rewrite app_nil_r. auto.
Qed.

(** ** Composition of builds and frames *)

Lemma run_systems_no_poll (ss : list System) (st : State) :
  count_poll_systems ss = 0 -> run_systems ss st = Done st.
Proof.
  induction ss as [|[] ss IH]; simpl; intros H; [reflexivity|discriminate|].
  apply IH, H.
Qed.

Lemma run_ticks_no_poll (n : nat) (st : State) :
  count_poll_systems (systems (app st)) = 0 -> run_ticks n st = Done st.
Proof.
  intros H. induction n as [|n IH]; simpl; [reflexivity|].
  unfold tick. rewrite run_systems_no_poll by exact H. exact IH.
Qed.

Lemma run_system_trace (s : System) (st st' : State) :
  run_system s st = Done st' ->
  exists k, sdk_calls st' = sdk_calls st ++ replicate k CallRunCallbacks.
Proof.
  destruct s; simpl.
  - destruct (non_send_resources (app st) !! discord_type) as [[c|z]|];
      try discriminate.
    unfold run_discord_callbacks. destruct (run_callbacks c) as [c' r].
    intros [= <-]. exists 1. reflexivity.
  - intros [= <-]. exists 0. by rewrite app_nil_r.
Qed.

Lemma run_systems_trace (ss : list System) (st st' : State) :
  run_systems ss st = Done st' ->
  exists k, sdk_calls st' = sdk_calls st ++ replicate k CallRunCallbacks.
Proof.
  revert st. induction ss as [|s ss IH]; intros st; simpl.
  - intros [= <-]. exists 0. by rewrite app_nil_r.
  - destruct (run_system s st) as [st1|m] eqn:E; [|discriminate].
    intros H. destruct (run_system_trace _ _ _ E) as [k1 H1].
    destruct (IH _ H) as [k2 H2]. exists (k1 + k2).
    rewrite H2, H1, replicate_add, app_assoc. reflexivity.
Qed.

Lemma iter_step_succ {A : Type} (f : A -> A) (k : nat) (x : A) :
  Nat.iter (S k) f x = Nat.iter k f (f x).
Proof. induction k as [|k IH]; simpl in *; [reflexivity|]. rewrite <- IH. reflexivity. Qed.

Lemma run_systems_client (ss : list System) (st : State) (c : Discord) :
  non_send_resources (app st) !! discord_type = Some (RDiscord c) ->
  exists st', run_systems ss st = Done st' /\
    systems (app st') = systems (app st) /\
    non_send_resources (app st') !! discord_type =
      Some (RDiscord (Nat.iter (count_poll_systems ss) (fun d => (run_callbacks d).1) c)).
Proof.
  revert st c. induction ss as [|s ss IH]; intros st c H; simpl.
  - eexists; split; [reflexivity|]. auto.
  - destruct s; simpl.
    + rewrite H. unfold run_discord_callbacks.
      destruct (run_callbacks c) as [c' r] eqn:Ec.
      destruct (IH (mkState (set_non_send discord_type (RDiscord c') (app st))
                            (sdk_calls st ++ [CallRunCallbacks])) c')
        as (st' & E & F1 & F2); [simpl; apply lookup_insert_eq|].
      exists st'. split; [exact E|]. split; [exact F1|].
      rewrite F2. do 2 f_equal.
      change ((run_callbacks (Nat.iter (count_poll_systems ss)
                (fun d => (run_callbacks d).1) c)).1)
        with (Nat.iter (S (count_poll_systems ss)) (fun d => (run_callbacks d).1) c).
      rewrite iter_step_succ, Ec. reflexivity.
    + apply IH, H.
Qed.

(** X1: adding the plugin twice with two successful constructions leaves
    one handle, the second client, but two poll systems, so every frame
    calls [run_callbacks] twice. *)
Theorem build_twice_ok (p1 p2 : DiscordPlugin) (st : State) (c1 c2 : Discord) :
  registry_wt (app st) ->
  count_poll_systems (systems (app st)) = 0 ->
  discord_new (plugin_id p1) = Ok c1 ->
  discord_new (plugin_id p2) = Ok c2 ->
  exists st1 st2, build p1 st = Done st1 /\ build p2 st1 = Done st2 /\
    non_send_resources (app st2) !! discord_type = Some (RDiscord c2) /\
    discord_count (app st2) = 1 /\
    count_poll_systems (systems (app st2)) = 2 /\
    forall n, exists st3, run_ticks n st2 = Done st3 /\
      count_run_callbacks (sdk_calls st3) = count_run_callbacks (sdk_calls st2) + 2 * n.
Proof.
  intros Hwt H0 H1 H2. rewrite (build_ok p1 st c1 H1).
  eexists. rewrite (build_ok p2 _ c2 H2). eexists.
  split; [reflexivity|]. split; [reflexivity|]. simpl.
  split; [apply lookup_insert_eq|].
  split.
  { rewrite discord_count_add_system, discord_count_wt.
    - unfold holds_client. simpl. by rewrite lookup_insert_eq.
    - apply registry_wt_insert, registry_wt_add_system, registry_wt_insert, Hwt. }
  split; [rewrite !count_poll_systems_app, H0; reflexivity|].
  intros n.
  destruct (run_ticks_active n
              (mkState (add_system SysRunDiscordCallbacks
                          (insert_non_send_resource c2
                             (add_system SysRunDiscordCallbacks
                                (insert_non_send_resource c1 (app st)))))
                       ((sdk_calls st ++ [CallNew (plugin_id p1)]) ++
                          [CallNew (plugin_id p2)])))
    as (st3 & E & C); [apply holds_client_after_build_ok|].
  exists st3. split; [exact E|]. rewrite C. simpl.
  rewrite !count_poll_systems_app, H0. simpl. lia.
Qed.


(** X3: after a failed construction, on a schedule that had no poll system,
    every frame completes and changes nothing: no SDK call, no panic. *)
Theorem failed_build_is_inert (p : DiscordPlugin) (st : State) (e : SdkError) :
  discord_new (plugin_id p) = Err e ->
  count_poll_systems (systems (app st)) = 0 ->
  exists st', build p st = Done st' /\ forall n, run_ticks n st' = Done st'.
Proof.
  intros He H0. rewrite (build_err p st e He). eexists; split; [reflexivity|].
  intros n. apply run_ticks_no_poll. exact H0.
Qed.


(** X5: with one poll system, the client polled each frame is the stored
    one: after [n] frames the slot holds the client advanced by [n]
    successive [run_callbacks]. *)
Theorem frames_thread_client (st : State) (c : Discord) :
  non_send_resources (app st) !! discord_type = Some (RDiscord c) ->
  count_poll_systems (systems (app st)) = 1 ->
  forall n, exists st', run_ticks n st = Done st' /\
    non_send_resources (app st') !! discord_type =
      Some (RDiscord (Nat.iter n (fun d => (run_callbacks d).1) c)).
Proof.
  intros H H1 n. revert st c H H1. induction n as [|n IH]; intros st c H H1; simpl.
  - eexists; split; [reflexivity|]. exact H.
  - unfold tick. destruct (run_systems_client (systems (app st)) st c H)
      as (st1 & E & F1 & F2).
    rewrite E. rewrite H1 in F2. simpl in F2.
    destruct (IH st1 _ F2) as (st2 & E2 & G); [congruence|].
    exists st2. split; [exact E2|]. rewrite G. do 2 f_equal.
    exact (eq_sym (iter_step_succ (fun d => (run_callbacks d).1) n c)).
Qed.

(** X6: frames never call [Discord::new] again (no retry): the SDK trace
    only grows by [run_callbacks] calls. *)
Theorem frames_never_reconstruct (n : nat) (st st' : State) :
  run_ticks n st = Done st' ->
  exists k, sdk_calls st' = sdk_calls st ++ replicate k CallRunCallbacks.
Proof.
  revert st. induction n as [|n IH]; intros st; simpl.
  - intros [= <-]. exists 0. by rewrite app_nil_r.
  - unfold tick. destruct (run_systems (systems (app st)) st) as [st1|m] eqn:E;
      [|discriminate].
    intros H. destruct (run_systems_trace _ _ _ E) as [k1 H1].
    destruct (IH _ H) as [k2 H2]. exists (k1 + k2).
    rewrite H2, H1, replicate_add, app_assoc. reflexivity.
Qed.

End Shim.

(** C5 (as amended): the poll system drops the [Result] of
    [run_callbacks]: it behaves exactly as if the call had returned [Ok]
    with the same effect on the client, so an error value is neither
    inspected, logged nor propagated. *)
Theorem poll_ignores_callback_result {D E : Type}
    (rc : D -> D * result unit E) (st : @State D) :
  run_system rc SysRunDiscordCallbacks st =
  run_system (fun c => ((rc c).1, @Ok unit E tt)) SysRunDiscordCallbacks st.
Proof.
  unfold run_system, run_discord_callbacks.
  destruct (non_send_resources (app st) !! discord_type) as [[c|z]|]; try reflexivity.
  destruct (rc c) as [c' r]. reflexivity.
Qed.

(** C8: the outcome of [build] depends only on the builder it runs on, the
    plugin's identifier and what [Discord::new] returns for it: two builds
    that agree on these agree, whatever happened in any other build. *)
Theorem build_depends_only_on_own_inputs {D E : Type}
    (new1 new2 : ClientID -> result D E) (disp : E -> string)
    (p1 p2 : DiscordPlugin) (st : @State D) :
  plugin_id p1 = plugin_id p2 ->
  new1 (plugin_id p1) = new2 (plugin_id p2) ->
  build new1 disp p1 st = build new2 disp p2 st.
Proof.
  intros Hid Hnew. unfold build, new_discord. rewrite Hid in *. rewrite Hnew.
  reflexivity.
Qed.

(** C9: [build] calls [Discord::new] once, with the plugin's own stored
    identifier, and uses the constructor only at that identifier. *)
Theorem build_passes_stored_id {D E : Type}
    (new : ClientID -> result D E) (disp : E -> string)
    (p : DiscordPlugin) (st : @State D) :
  build new disp p st = build (fun _ => new (plugin_id p)) disp p st /\
  exists st', build new disp p st = Done st' /\
    sdk_calls st' = sdk_calls st ++ [CallNew (plugin_id p)].
Proof.
  split; [reflexivity|].
  unfold build, new_discord. simpl.
  destruct (new (plugin_id p)); eexists; split; reflexivity.
Qed.

(** C5: a [run_callbacks] error is suppressed by the poll system: with an
    SDK that reports [NotRunning], the system completes normally, logs
    nothing, and ends in the state a successful call would give. *)
Lemma poll_drops_sdk_error :
  failing_run_callbacks 0%nat = (0%nat, Err "NotRunning") /\
  exists st1,
    run_system failing_run_callbacks SysRunDiscordCallbacks
      (mkState (mkApp ∅ {[discord_type := RDiscord 0%nat]}
                      [SysRunDiscordCallbacks] []) []) = Done st1 /\
    logs (app st1) = [] /\
    run_system failing_run_callbacks SysRunDiscordCallbacks
      (mkState (mkApp ∅ {[discord_type := RDiscord 0%nat]}
                      [SysRunDiscordCallbacks] []) []) =
    run_system (fun c : nat => (c, @Ok unit string tt)) SysRunDiscordCallbacks
      (mkState (mkApp ∅ {[discord_type := RDiscord 0%nat]}
                      [SysRunDiscordCallbacks] []) []).
Proof.
  split; [reflexivity|].
  eexists; split; [reflexivity|]. split; reflexivity.
Qed.

(** ** Witnesses: the claims' hypotheses hold at concrete inputs *)

Lemma build_success_registers_witness :
  exists st', build sample_new sample_display (mkDiscordPlugin 42%Z)
                (mkState (mkApp ∅ ∅ [SysOther "render"] []) []) = Done st' /\
    non_send_resources (app st') !! discord_type = Some (RDiscord 0%nat) /\
    discord_count (app st') = 1 /\
    count_poll_systems (systems (app st')) = 1 /\
    forall n, exists st'', run_ticks sample_run_callbacks n st' = Done st'' /\
      count_run_callbacks (sdk_calls st'') = count_run_callbacks (sdk_calls st') + n.
Proof.
  apply (build_success_registers sample_new sample_run_callbacks sample_display).
  - split; intros k d H; vm_compute in H; discriminate.
  - reflexivity.
  - reflexivity.
Defined.

Lemma build_at_most_one_handle_witness :
  exists st', build sample_new sample_display (mkDiscordPlugin (-1)%Z)
                (mkState (mkApp ∅ ∅ [SysOther "render"] []) []) = Done st' /\
    registry_wt (app st') /\
    discord_count (app st') <= 1 /\
    match sample_new (plugin_id (mkDiscordPlugin (-1)%Z)) with
    | Ok c => non_send_resources (app st') !! discord_type = Some (RDiscord c) /\
              discord_count (app st') = 1
    | Err _ => discord_count (app st') = 0
    end /\
    forall n st'', run_ticks sample_run_callbacks n st' = Done st'' ->
      registry_wt (app st'') /\ discord_count (app st'') = discord_count (app st').
Proof.
  apply (build_at_most_one_handle sample_new sample_run_callbacks sample_display).
  - split; intros k d H; vm_compute in H; discriminate.
  - vm_compute. reflexivity.
Defined.

Lemma active_is_permanent_witness :
  exists st', build sample_new sample_display (mkDiscordPlugin 42%Z)
                (mkState (mkApp ∅ ∅ [SysOther "render"] []) []) = Done st' /\
    count_poll_systems (systems (app st')) >= 1 /\
    forall n, exists st'', run_ticks sample_run_callbacks n st' = Done st'' /\
      holds_client (app st'') = true /\
      systems (app st'') = systems (app st') /\
      count_run_callbacks (sdk_calls st'') =
        count_run_callbacks (sdk_calls st') + n * count_poll_systems (systems (app st')).
Proof.
  apply (active_is_permanent sample_new sample_run_callbacks sample_display _ _ 0%nat).
  reflexivity.
Defined.

Lemma build_depends_only_on_own_inputs_witness :
  build sample_new sample_display (mkDiscordPlugin 42%Z)
    (mkState (mkApp ∅ ∅ [SysOther "render"] []) []) =
  build (fun id => if Z.eqb id 42 then Ok 0%nat else Err "InvalidClientId")
    sample_display (mkDiscordPlugin 42%Z)
    (mkState (mkApp ∅ ∅ [SysOther "render"] []) []).
Proof.
  apply build_depends_only_on_own_inputs; reflexivity.
Defined.

Lemma build_twice_ok_witness :
  exists st1 st2,
    build sample_new sample_display (mkDiscordPlugin 42%Z)
      (mkState (mkApp ∅ ∅ [SysOther "render"] []) []) = Done st1 /\
    build sample_new sample_display (mkDiscordPlugin 7%Z) st1 = Done st2 /\
    non_send_resources (app st2) !! discord_type = Some (RDiscord 0%nat) /\
    discord_count (app st2) = 1 /\
    count_poll_systems (systems (app st2)) = 2 /\
    forall n, exists st3, run_ticks sample_run_callbacks n st2 = Done st3 /\
      count_run_callbacks (sdk_calls st3) = count_run_callbacks (sdk_calls st2) + 2 * n.
Proof.
  apply (build_twice_ok sample_new sample_run_callbacks sample_display _ _
           (mkState (mkApp ∅ ∅ [SysOther "render"] []) []) 0%nat 0%nat).
  - split; intros k d H; vm_compute in H; discriminate.
  - reflexivity.
  - reflexivity.
  - reflexivity.
Defined.


Lemma failed_build_is_inert_witness :
  exists st', build sample_new sample_display (mkDiscordPlugin (-1)%Z)
                (mkState (mkApp ∅ ∅ [SysOther "render"] []) []) = Done st' /\
    forall n, run_ticks sample_run_callbacks n st' = Done st'.
Proof.
  apply (failed_build_is_inert sample_new sample_run_callbacks sample_display _ _
           "NotInstalled"); reflexivity.
Defined.


Lemma frames_thread_client_witness :
  exists st', run_ticks sample_run_callbacks 3
                (mkState (mkApp ∅ {[discord_type := RDiscord 0%nat]}
                                [SysOther "render"; SysRunDiscordCallbacks] []) []) = Done st' /\
    non_send_resources (app st') !! discord_type =
      Some (RDiscord (Nat.iter 3 (fun d => (sample_run_callbacks d).1) 0%nat)).
Proof.
  apply (frames_thread_client sample_run_callbacks
           (mkState (mkApp ∅ {[discord_type := RDiscord 0%nat]}
                           [SysOther "render"; SysRunDiscordCallbacks] []) []) 0%nat).
  - vm_compute. reflexivity.
  - reflexivity.
Defined.

Lemma frames_never_reconstruct_witness :
  exists st', run_ticks sample_run_callbacks 3
                (mkState (mkApp ∅ {[discord_type := RDiscord 0%nat]}
                                [SysRunDiscordCallbacks] []) [CallNew 42%Z]) = Done st' /\
    exists k, sdk_calls st' = [CallNew 42%Z] ++ replicate k CallRunCallbacks.
Proof.
  eexists; split; [reflexivity|].
  apply (frames_never_reconstruct sample_run_callbacks 3
           (mkState (mkApp ∅ {[discord_type := RDiscord 0%nat]}
                           [SysRunDiscordCallbacks] []) [CallNew 42%Z])).
  reflexivity.
Defined.
